(** * backup.py: the import / decrypt / backup / read-only / export pipeline

    A shallow embedding of [src/backup.py].  The Python functions become
    computations in a small trace-and-exception monad: every call that leaves
    the module (the logger, the mail helpers, [subprocess.run], the
    ZFS-Autobackup engine) is recorded as an event, and a computation either
    returns a value or raises a Python exception.  What the outside world
    answers is a parameter of every function (a [World]). *)

From stdpp Require Import base option list strings gmap.
From Stdlib Require Import ZArith.

Local Open Scope Z_scope.

(** ** Data *)

(** The newline of the f-strings. *)
Definition nl : string := String (Ascii.ascii_of_nat 10) "".

(** [PoolConfig] of config_reader: an optional passphrase and the argument
    list handed to ZFS-Autobackup. *)
Record PoolConfig := {
  passphrase : option string;
  autobackup_parameters : list string
}.

(** [EmailConfig]: only the flag this module reads. *)
Record EmailConfig := {
  send_autobackup_output : bool
}.

(** [AppConfig]: [pools] is a dict keyed by device label, [email] is
    [None] when no mail is configured. *)
Record AppConfig := {
  pools : gmap string PoolConfig;
  email : option EmailConfig
}.

(** [subprocess.CompletedProcess]. *)
Record CompletedProcess := {
  args : list string;
  returncode : Z;
  stdout : string;
  stderr : string
}.

(** The exceptions (subclasses of [Exception]) that occur in a run:
    [subprocess.CalledProcessError] with the attributes the module reads,
    any other exception raised by a collaborator, and the
    [UnboundLocalError] raised by reading a local that was never assigned
    (its context is the exception being handled at that moment). *)
Inductive PyException :=
| CalledProcessError (cmd : list string) (code : Z) (output err : string)
| OtherException (type_name message : string)
| UnboundLocalError (variable : string) (context : PyException).

(** ** The world outside the module *)

(** What [subprocess.run(command, input=.., text=True, stdout=PIPE,
    stderr=PIPE)] does before [check] is applied: the process was started,
    it exited with a status and its output was decoded as text; or the call
    raised (the executable cannot be started: [FileNotFoundError],
    [PermissionError]; the output cannot be decoded under [text=True]:
    [UnicodeDecodeError]; ...). *)
Inductive RunOutcome :=
| Exited (status : Z) (out err : string)
| RunRaises (type_name message : string).

(** What [ZfsAutobackup(args, print_arguments=False).run()] does: it returns
    the number of failed datasets after writing [out] and [err] to the two
    redirected streams, or it raises an exception, or it leaves through
    [sys.exit(code)] (as its argument parser does on bad parameters).
    [SystemExit] is not a subclass of [Exception]. *)
Inductive BackupOutcome :=
| Returned (failed_datasets : Z) (out err : string)
| BackupRaises (e : PyException)
| BackupExits (code : Z).

(** The four commands of a run have pairwise distinct argument vectors and
    each is run at most once, so a function of the arguments is as general
    as a sequence of answers.  [exc_str e] is [str(e)] and [format_exc e] is
    [traceback.format_exc()] while [e] is being handled; both are rendered
    by the interpreter. *)
Record World := {
  subprocess_run : list string → option string → RunOutcome;
  ZfsAutobackup_run : list string → BackupOutcome;
  exc_str : PyException → string;
  format_exc : PyException → string
}.

(** ** Events, and the monad of traces and exceptions *)

(** The three kinds of operator message of mail_util: [mail], [mail_error]
    and [mail_exception]. *)
Inductive Category := Info | Error | Exception.

Inductive Event :=
| Log (message : string)
| LogError (message : string)
| Mail (category : Category) (message : string) (config : option EmailConfig)
| Run (command : list string) (input_data : option string)
| Backup (parameters : list string).

(** A computation returns, raises an exception that [except Exception]
    catches, or is left by a [SystemExit] that no handler of the module
    catches.  Interrupts of the interpreter itself are not modelled. *)
Inductive Result (A : Type) :=
| Ok (a : A)
| Raise (e : PyException)
| Exits (code : Z).
Arguments Ok {A} a.
Arguments Raise {A} e.
Arguments Exits {A} code.

Definition M (A : Type) : Type := list Event * Result A.

Definition trace {A} (m : M A) : list Event := m.1.
Definition result {A} (m : M A) : Result A := m.2.

Definition prepend {A} (t : list Event) (m : M A) : M A :=
  let '(t', r) := m in (t ++ t', r).

Definition raise {A} (e : PyException) : M A := ([], Raise e).
Definition sys_exit {A} (code : Z) : M A := ([], Exits code).
Definition emit (ev : Event) : M unit := ([ev], Ok tt).

#[export] Instance M_ret : MRet M := λ A a, ([], Ok a).
#[export] Instance M_bind : MBind M := λ A B k m,
  let '(t, r) := m in
  match r with
  | Ok a => prepend t (k a)
  | Raise e => (t, Raise e)
  | Exits code => (t, Exits code)
  end.

(** [try: body / except Exception as e: handler e]. *)
Definition try_except {A} (body : M A) (handler : PyException → M A) : M A :=
  let '(t, r) := body in
  match r with
  | Ok a => (t, Ok a)
  | Raise e => prepend t (handler e)
  | Exits code => (t, Exits code)
  end.

(** A [try] block that assigns locals part-way.  [before] runs while the
    locals are unbound and either leaves the function ([inl v] is
    [return v]) or binds them ([inr l]); [after l] is the rest of the block.
    The handler sees the locals as they were when the exception was raised. *)
Definition try_binding {L A} (before : M (A + L)) (after : L → M A)
    (handler : option L → PyException → M A) : M A :=
  let '(t, r) := before in
  match r with
  | Raise e => prepend t (handler None e)
  | Ok (inl v) => (t, Ok v)
  | Ok (inr l) => prepend t (try_except (after l) (handler (Some l)))
  | Exits code => (t, Exits code)
  end.

(** Reading a local variable inside a handler: an unbound slot raises
    [UnboundLocalError], whose context is the exception being handled. *)
Definition load_fast {A} (name : string) (slot : option A)
    (handling : PyException) : M A :=
  match slot with
  | Some v => mret v
  | None => raise (UnboundLocalError name handling)
  end.

(** Truth value of a Python [str]: false exactly for the empty one. *)
Definition truthy (s : string) : bool :=
  match s with
  | EmptyString => false
  | String _ _ => true
  end.

(** ** Collaborators *)

(** The logger of log_util is not among the sources: a call is recorded as
    an event and does not raise. *)
Definition logger_log (message : string) : M unit := emit (Log message).
Definition logger_error (message : string) : M unit := emit (LogError message).

(** Modelled from the spec: mail_util is not among the sources.  Its three
    functions take a message, the notification configuration (possibly
    absent) and the logger, deliver or log the message, and never raise.  A
    call is recorded with its category, its message and the configuration it
    was given. *)
Definition mail (message : string) (config : option EmailConfig) : M unit :=
  emit (Mail Info message config).
Definition mail_error (message : string) (config : option EmailConfig) : M unit :=
  emit (Mail Error message config).
Definition mail_exception (message : string) (config : option EmailConfig) : M unit :=
  emit (Mail Exception message config).

(** [subprocess.run(command, input=input_data, text=True, check=True,
    stdout=PIPE, stderr=PIPE)]: with [check=True] a nonzero exit status is
    raised as [CalledProcessError(returncode, cmd, output, stderr)]. *)
Definition subprocess_run_check (w : World) (command : list string)
    (input_data : option string) : M CompletedProcess :=
  emit (Run command input_data) ;;
  match subprocess_run w command input_data with
  | Exited status out err =>
      if status =? 0
      then mret {| args := command; returncode := status; stdout := out; stderr := err |}
      else raise (CalledProcessError command status out err)
  | RunRaises type_name message => raise (OtherException type_name message)
  end.

(** ** The module *)

Definition command_error_message (w : World) (e : PyException) : string :=
  "An error occurred: " +:+ exc_str w e.

Definition run_command (w : World) (command : list string)
    (input_data : option string) : M CompletedProcess :=
  try_except (subprocess_run_check w command input_data)
    (λ e,
      match e with
      | CalledProcessError cmd code output err =>
          logger_error (command_error_message w e) ;;
          mret {| args := cmd; returncode := code; stdout := output; stderr := err |}
      | _ => raise e
      end).

Definition import_pool (w : World) (pool : string) : M CompletedProcess :=
  run_command w ["zpool"; "import"; pool; "-N"] None.

Definition export_pool (w : World) (pool : string) : M CompletedProcess :=
  run_command w ["zpool"; "export"; pool] None.

Definition decrypt_pool (w : World) (pool : string) (passphrase : string)
    : M CompletedProcess :=
  run_command w ["zfs"; "load-key"; pool] (Some passphrase).

Definition set_pool_readonly (w : World) (pool : string) : M CompletedProcess :=
  run_command w ["zfs"; "set"; "readonly=on"; pool] None.

(** The output written before an exception is held by the two local
    [StringIO] objects and is lost with them. *)
Definition run_zfs_autobackup (w : World) (args : list string)
    : M (bool * string * string) :=
  emit (Backup args) ;;
  match ZfsAutobackup_run w args with
  | Returned failed_datasets out err => mret (failed_datasets =? 0, out, err)
  | BackupRaises e => raise e
  | BackupExits code => sys_exit code
  end.

(** The message texts, one definition per f-string of the source. *)
Definition importing_message (device_label : string) : string :=
  "Importing pool " +:+ device_label.

Definition exporting_message (device_label : string) : string :=
  "Exporting " +:+ device_label.

Definition decrypting_message (device_label : string) : string :=
  "Decrypting pool " +:+ device_label.

Definition setting_readonly_message (device_label : string) : string :=
  "Setting pool " +:+ device_label +:+ " to read-only".

Definition unknown_disk_message (device_label : string) : string :=
  "Plugged in disk " +:+ device_label +:+
  " that is not matching any configuration. You can unplug it again safely.".

Definition import_failed_message (err : string) : string :=
  "Failed to import pool. Backup not yet run." +:+ nl +:+ nl +:+
  "Error:" +:+ nl +:+ err.

Definition export_failed_message (err : string) : string :=
  "Failed to export pool." +:+ nl +:+ nl +:+ "Error:" +:+ nl +:+ err.

Definition finished_message (device_label : string) : string :=
  "Backup finished. You can safely unplug the disk " +:+ device_label +:+ " now.".

Definition finished_with_output_message (device_label captured_output : string)
    : string :=
  "Backup finished. You can safely unplug the disk " +:+ device_label +:+
  " now." +:+ nl +:+ nl +:+ "ZFS-Autobackup output:" +:+ nl +:+ captured_output.

Definition envelope_exception_message (w : World) (e : PyException) : string :=
  "An unexpected error occurred. Backup may have failed. Please investigate." +:+
  nl +:+ nl +:+ "Error:" +:+ nl +:+ exc_str w e +:+ nl +:+ format_exc w e.

Definition decrypt_failed_message (err : string) : string :=
  "Failed to decrypt pool. Backup not yet run." +:+ nl +:+ nl +:+
  "Error:" +:+ nl +:+ err.

Definition starting_message (device_label : string) (parameters : list string)
    : string :=
  ("Starting ZFS-Autobackup for pool " +:+ device_label +:+ " with parameters:" +:+
   nl +:+ "zfs-autobackup ") +:+ String.concat " " parameters.

Definition autobackup_error_log : string :=
  "ZFS autobackup error! Disk will not be exported automatically.".

Definition autobackup_error_output_message (out err : string) : string :=
  "ZFS autobackup error! Disk will not be exported automatically:" +:+
  nl +:+ nl +:+ (if truthy err then err else out).

Definition autobackup_error_generic_message : string :=
  "ZFS autobackup error! Disk will not be exported automatically. Check logs for details.".

Definition readonly_failed_message (ro_err out err : string) : string :=
  "Failed to set pool readonly. Disk will not be exported automatically." +:+
  nl +:+ nl +:+ "Error:" +:+ nl +:+ ro_err +:+ nl +:+ nl +:+
  "Backup was successful:" +:+ nl +:+ out +:+ nl +:+ nl +:+ err.

Definition inner_exception_message (w : World) (e : PyException)
    (out err : string) : string :=
  "An unexpected error occurred. Backup may have failed. Please investigate." +:+
  nl +:+ nl +:+ "Error:" +:+ nl +:+ exc_str w e +:+ nl +:+ nl +:+
  "Backup output:" +:+ nl +:+ out +:+ nl +:+ nl +:+ err.

(** The condition of line 58, [not success or stderr]: the attempt counts as
    failed when the engine reports failed datasets or wrote anything to its
    error stream. *)
Definition degraded (success : bool) (err : string) : bool :=
  negb success || truthy err.

(** The locals [success], [stdout] and [stderr] are bound together by the
    tuple assignment of line 57.  Lines 49 to 57 run before it, lines 58 to
    73 after it; the handler of line 75 reads [stdout] and [stderr]. *)
Definition decrypt_and_backup (w : World) (device_label : string)
    (pool_config : PoolConfig) (config : AppConfig) : M (option string) :=
  try_binding
    (let backup : M (option string + bool * string * string) :=
       logger_log (starting_message device_label (autobackup_parameters pool_config)) ;;
       locals ← run_zfs_autobackup w (autobackup_parameters pool_config);
       mret (inr locals) in
     match passphrase pool_config with
     | Some p =>
         if truthy p then
           logger_log (decrypting_message device_label) ;;
           result ← decrypt_pool w device_label p;
           if negb (returncode result =? 0) then
             mail_error (decrypt_failed_message (stderr result)) (email config) ;;
             mret (inl None)
           else backup
         else backup
     | None => backup
     end)
    (λ '(success, out, err),
       (if degraded success err then
          match email config with
          | None => logger_log autobackup_error_log
          | Some e =>
              if send_autobackup_output e
              then mail_error (autobackup_error_output_message out err) (email config)
              else mail_error autobackup_error_generic_message (email config)
          end
        else if truthy out then logger_log out
        else mret tt) ;;
       logger_log (setting_readonly_message device_label) ;;
       result ← set_pool_readonly w device_label;
       if negb (returncode result =? 0) then
         mail_error (readonly_failed_message (stderr result) out err) (email config) ;;
         mret None
       else mret (Some out))
    (λ locals e,
       out ← load_fast "stdout" ((λ l, l.1.2) <$> locals) e;
       err ← load_fast "stderr" ((λ l, l.2) <$> locals) e;
       mail_exception (inner_exception_message w e out err) (email config) ;;
       mret None).

Definition import_decrypt_backup_export (w : World) (device_label : string)
    (config : AppConfig) : M unit :=
  match pools config !! device_label with
  | None => mail (unknown_disk_message device_label) (email config)
  | Some pool_config =>
      try_except
        (logger_log (importing_message device_label) ;;
         result ← import_pool w device_label;
         if negb (returncode result =? 0) then
           mail_error (import_failed_message (stderr result)) (email config)
         else
           captured_output ← decrypt_and_backup w device_label pool_config config;
           match captured_output with
           | None => mret tt
           | Some captured_output =>
               logger_log (exporting_message device_label) ;;
               result ← export_pool w device_label;
               if negb (returncode result =? 0) then
                 mail_error (export_failed_message (stderr result)) (email config)
               else
                 match email config with
                 | None => logger_log (finished_message device_label)
                 | Some e =>
                     if send_autobackup_output e
                     then mail (finished_with_output_message device_label captured_output)
                            (email config)
                     else mail (finished_message device_label) (email config)
                 end
           end)
        (λ e, mail_error (envelope_exception_message w e) (email config))
  end.

(** ** Observations and sample inputs *)

(** What an observer of the logs, the mails and the process table sees of an
    event: everything but the data written to a process's standard input. *)
Definition without_input (ev : Event) : Event :=
  match ev with
  | Run command _ => Run command None
  | _ => ev
  end.

(** [needle] occurs in [text]. *)
Definition contains (needle text : string) : Prop :=
  ∃ head tail, text = head +:+ needle +:+ tail.

(** The events that act on the world: the external commands and the backup
    engine; and the calls of the mail helpers. *)
Definition is_command (ev : Event) : bool :=
  match ev with
  | Run _ _ | Backup _ => true
  | _ => false
  end.

Definition commands (t : list Event) : list Event := List.filter is_command t.


(** The stages of a complete run for a configured pool, in the order of the
    source: import (line 21), load-key when the passphrase is non-empty
    (line 51), the backup engine (line 57), read-only (line 69), export
    (line 31). *)
Definition stage_sequence (device_label : string) (pool_config : PoolConfig)
    : list Event :=
  [Run ["zpool"; "import"; device_label; "-N"] None] ++
  match passphrase pool_config with
  | Some p => if truthy p then [Run ["zfs"; "load-key"; device_label] (Some p)] else []
  | None => []
  end ++
  [Backup (autobackup_parameters pool_config);
   Run ["zfs"; "set"; "readonly=on"; device_label] None;
   Run ["zpool"; "export"; device_label] None].

(** The world [w] with the answer of the backup engine replaced. *)
Definition with_backup (w : World) (answer : BackupOutcome) : World :=
  {| subprocess_run := subprocess_run w;
     ZfsAutobackup_run := λ _, answer;
     exc_str := exc_str w;
     format_exc := format_exc w |}.

(** The configuration [config] with the passphrase of pool [device_label]
    replaced by [p]. *)
Definition with_passphrase (config : AppConfig) (device_label p : string)
    : AppConfig :=
  {| pools :=
       alter (λ pc, {| passphrase := Some p;
                       autobackup_parameters := autobackup_parameters pc |})
         device_label (pools config);
     email := email config |}.

(** Sample worlds: every command exits with status 0 and prints nothing,
    except the command whose second word is [verb], which answers [answer];
    the backup engine answers [backup]. *)
Definition verb_is (verb : string) (command : list string) : bool :=
  match command !! 1%nat with
  | Some v => String.eqb v verb
  | None => false
  end.

Definition sample_str (e : PyException) : string :=
  match e with
  | CalledProcessError _ _ _ _ => "Command returned non-zero exit status."
  | OtherException _ message => message
  | UnboundLocalError variable _ =>
      "cannot access local variable " +:+ variable +:+
      " where it is not associated with a value"
  end.

Definition sample_world (verb : string) (answer : RunOutcome)
    (backup : BackupOutcome) : World :=
  {| subprocess_run := λ command _,
       if verb_is verb command then answer else Exited 0 "" "";
     ZfsAutobackup_run := λ _, backup;
     exc_str := sample_str;
     format_exc := λ _, "Traceback (most recent call last): ..." |}.

Definition clean_backup : BackupOutcome := Returned 0 "3 snapshots sent" "".
Definition failed_backup : BackupOutcome :=
  Returned 1 "2 snapshots sent" "cannot receive: out of space".

Definition healthy_world : World := sample_world "" (Exited 0 "" "") clean_backup.

Definition tank : PoolConfig :=
  {| passphrase := Some "correct horse";
     autobackup_parameters := ["offsite"; "tank"; "--clear-mountpoint"] |}.

Definition plain : PoolConfig :=
  {| passphrase := None; autobackup_parameters := ["offsite"; "plain"] |}.

Definition sample_config (mail_output : option bool) : AppConfig :=
  {| pools := {[ "tank" := tank; "plain" := plain ]};
     email := (λ b, {| send_autobackup_output := b |}) <$> mail_output |}.

Arguments importing_message : simpl never.
Arguments exporting_message : simpl never.
Arguments decrypting_message : simpl never.
Arguments setting_readonly_message : simpl never.
Arguments unknown_disk_message : simpl never.
Arguments import_failed_message : simpl never.
Arguments export_failed_message : simpl never.
Arguments finished_message : simpl never.
Arguments finished_with_output_message : simpl never.
Arguments envelope_exception_message : simpl never.
Arguments decrypt_failed_message : simpl never.
Arguments starting_message : simpl never.
Arguments autobackup_error_log : simpl never.
Arguments autobackup_error_output_message : simpl never.
Arguments autobackup_error_generic_message : simpl never.
Arguments readonly_failed_message : simpl never.
Arguments inner_exception_message : simpl never.
Arguments command_error_message : simpl never.

(** ** Proof machinery *)

(** Unfold the monad and the collaborators down to pairs of a trace and a
    result. *)
Ltac unfold_monad :=
  unfold try_binding, try_except, load_fast, mail, mail_error, mail_exception,
    logger_log, logger_error, emit, raise, sys_exit, mbind, M_bind, mret, M_ret,
    prepend, trace, result in *.

Ltac unfold_commands :=
  unfold import_pool, export_pool, decrypt_pool, set_pool_readonly,
    run_command, subprocess_run_check, run_zfs_autobackup in *.

Ltac unfold_pipeline :=
  unfold import_decrypt_backup_export, decrypt_and_backup, degraded in *;
  unfold_commands; unfold_monad.

(** The term that blocks the evaluation of [t]: the innermost scrutinee of
    its chain of matches. *)
Ltac blocking t :=
  lazymatch t with
  | match ?s with _ => _ end => blocking s
  | _ => t
  end.

(** One step of symbolic execution: use a known answer of the world, or
    split on the thing the program inspects next. *)
Ltac exec_step :=
  match goal with
  | |- context [match ?s with _ => _ end] =>
      let h := blocking s in
      first
        [ match goal with H : h = _ |- _ => rewrite H end
        | lazymatch h with
          | negb (?n =? 0) => destruct (Z.eqb_spec n 0)
          | ?n =? 0 => destruct (Z.eqb_spec n 0)
          | _ => destruct h eqn:?
          end ]
  end; cbn; subst; try congruence.

Ltac exec := unfold_pipeline; cbn; repeat exec_step.

(** A membership hypothesis about a trace that does not hold the event. *)
Ltac absurd_membership H :=
  exfalso; clear -H; cbn in H; intuition discriminate.

(** Call [k pre rest] on every split [pre ++ rest] of the explicit list [l],
    shortest prefix first, until one succeeds. *)
Ltac with_prefix l pre k :=
  first
    [ k pre l
    | lazymatch l with
      | ?x :: ?l' =>
          let pre' := eval cbn in (pre ++ [x]) in with_prefix l' pre' k
      end ].

(** Use the facts of the context to discharge the premises of a
    hypothesis, then split what it gives. *)
Ltac use_premises :=
  repeat match goal with
  | H : ∀ p, Some ?s = Some p → _ |- _ => specialize (H s eq_refl)
  | H : ?P → _, H' : ?P |- _ => specialize (H H')
  | H : ∃ _, _ |- _ => destruct H
  | H : _ ∧ _ |- _ => destruct H
  end; simplify_eq.

(** Execute the run [r] once, however often the goal mentions it. *)
Ltac exec_run r :=
  let x := fresh "the_run" in
  let Hx := fresh "Hrun" in
  remember r as x eqn:Hx; revert x Hx; exec; intros x ->; cbn.

(** A goal [A → B] about a finished run, where [A] or [B] says that an event
    is in the trace: [A] is absurd, or [B] follows from what the world
    answered. *)
Ltac gate_leaf :=
  let H := fresh "H" in
  intros H;
  first
    [ absurd_membership H
    | solve [ clear H; repeat split; cbn; eauto 15; intros; simplify_eq; eauto;
              congruence ]
    | solve [ cbn; auto 15 ]
    | solve [ exfalso; use_premises; congruence ] ].

(** ** Helper lemmas *)

Lemma append_cons (x : Ascii.ascii) (a b : string) :
  String x a +:+ b = String x (a +:+ b).
Proof. reflexivity. Qed.

Lemma append_assoc (a b c : string) : (a +:+ b) +:+ c = a +:+ b +:+ c.
Proof. induction a as [|x a IH]; [done|]. by rewrite !append_cons, IH. Qed.

Lemma truthy_true_iff (s : string) : truthy s = true ↔ s ≠ "".
Proof. destruct s; cbn; split; congruence. Qed.

Lemma truthy_false_iff (s : string) : truthy s = false ↔ s = "".
Proof. destruct s; cbn; split; congruence. Qed.

Lemma readonly_failed_message_contains (ro_err out err : string) :
  contains ("Backup was successful:" +:+ nl +:+ out)
    (readonly_failed_message ro_err out err).
Proof.
  exists ("Failed to set pool readonly. Disk will not be exported automatically." +:+
          nl +:+ nl +:+ "Error:" +:+ nl +:+ ro_err +:+ nl +:+ nl),
         (nl +:+ nl +:+ err).
  unfold readonly_failed_message. by rewrite !append_assoc.
Qed.

(** The answer of [run_command] when the tool ran. *)
Lemma run_command_exited w c i rc out err :
  subprocess_run w c i = Exited rc out err →
  run_command w c i =
    (Run c i ::
       (if rc =? 0 then []
        else [LogError (command_error_message w (CalledProcessError c rc out err))]),
     Ok {| args := c; returncode := rc; stdout := out; stderr := err |}).
Proof.
  intros H. unfold run_command, subprocess_run_check. unfold_monad. cbn.
  rewrite H. destruct (Z.eqb_spec rc 0); cbn; subst; done.
Qed.

(** The answer of [run_command] when the tool could not be run. *)
Lemma run_command_raises w c i n m :
  subprocess_run w c i = RunRaises n m →
  run_command w c i = ([Run c i], Raise (OtherException n m)).
Proof.
  intros H. unfold run_command, subprocess_run_check. unfold_monad. cbn.
  by rewrite H.
Qed.

(** ** The claims *)

(** C6.  A device label that is not a key of the configured pools gives a
    run that consists of one call of [mail] (an Info notification) whose
    text says that the plugged-in disk matches no configuration and can be
    unplugged again safely; no external command and no backup is run, and
    the function returns. *)
Theorem unknown_device_only_informs (w : World) (device_label : string)
    (config : AppConfig) :
  pools config !! device_label = None →
  import_decrypt_backup_export w device_label config =
    ([Mail Info
        ("Plugged in disk " +:+ device_label +:+
         " that is not matching any configuration. You can unplug it again safely.")
        (email config)],
     Ok tt).
Proof. intros H. unfold import_decrypt_backup_export. by rewrite H. Qed.

Lemma unknown_device_only_informs_witness :
  pools (sample_config (Some true)) !! "diskA" = None ∧
  import_decrypt_backup_export healthy_world "diskA" (sample_config (Some true)) =
    ([Mail Info
        "Plugged in disk diskA that is not matching any configuration. You can unplug it again safely."
        (Some {| send_autobackup_output := true |})],
     Ok tt).
Proof.
  split; [vm_compute; reflexivity|].
  apply (unknown_device_only_informs healthy_world "diskA" (sample_config (Some true))).
  vm_compute; reflexivity.
Defined.

(** C7.  Once the device is configured the run starts by running
    [zpool import <device> -N]; when that command exits nonzero the run is
    exactly: the log line, the command, the logged [CalledProcessError], and
    one call of [mail_error] whose text is the failure notice followed by
    the command's stderr.  No load-key, backup, read-only or export
    follows. *)
Theorem import_failure_aborts (w : World) (device_label : string)
    (config : AppConfig) (pool_config : PoolConfig) :
  pools config !! device_label = Some pool_config →
  (∃ rest,
     trace (import_decrypt_backup_export w device_label config) =
       Log (importing_message device_label) ::
       Run ["zpool"; "import"; device_label; "-N"] None :: rest) ∧
  (∀ rc out err,
     subprocess_run w ["zpool"; "import"; device_label; "-N"] None = Exited rc out err →
     rc ≠ 0 →
     import_decrypt_backup_export w device_label config =
       ([Log (importing_message device_label);
         Run ["zpool"; "import"; device_label; "-N"] None;
         LogError ("An error occurred: " +:+
                   exc_str w (CalledProcessError
                                ["zpool"; "import"; device_label; "-N"] rc out err));
         Mail Error
           ("Failed to import pool. Backup not yet run." +:+ nl +:+ nl +:+
            "Error:" +:+ nl +:+ err)
           (email config)],
        Ok tt)).
Proof.
  intros Hpool. split.
  - exec; eauto.
  - intros rc out err Hrun Hrc. exec; done.
Qed.

Lemma import_failure_aborts_witness :
  import_decrypt_backup_export
    (sample_world "import" (Exited 1 "" "cannot import pool") clean_backup)
    "tank" (sample_config (Some false)) =
    ([Log (importing_message "tank");
      Run ["zpool"; "import"; "tank"; "-N"] None;
      LogError "An error occurred: Command returned non-zero exit status.";
      Mail Error
        ("Failed to import pool. Backup not yet run." +:+ nl +:+ nl +:+
         "Error:" +:+ nl +:+ "cannot import pool")
        (Some {| send_autobackup_output := false |})],
     Ok tt).
Proof.
  refine (proj2 (import_failure_aborts
    (sample_world "import" (Exited 1 "" "cannot import pool") clean_backup)
    "tank" (sample_config (Some false)) tank _) 1 "" "cannot import pool" _ _).
  - vm_compute; reflexivity.
  - vm_compute; reflexivity.
  - discriminate.
Defined.



(** C10.  Whatever the backup engine returned (any failed-dataset count, any
    stderr), when the read-only command exits nonzero the last event of the
    run is a call of [mail_error] whose text holds the words
    [Backup was successful:], a newline and the captured backup stdout. *)
Theorem readonly_failure_mail_says_successful (w : World)
    (device_label : string) (config : AppConfig) (pool_config : PoolConfig)
    (rc : Z) (ro_out ro_err : string) (n : Z) (out err : string) :
  pools config !! device_label = Some pool_config →
  In (Run ["zfs"; "set"; "readonly=on"; device_label] None)
     (trace (import_decrypt_backup_export w device_label config)) →
  subprocess_run w ["zfs"; "set"; "readonly=on"; device_label] None =
    Exited rc ro_out ro_err →
  rc ≠ 0 →
  ZfsAutobackup_run w (autobackup_parameters pool_config) = Returned n out err →
  ∃ message,
    last (trace (import_decrypt_backup_export w device_label config)) =
      Some (Mail Error message (email config)) ∧
    contains ("Backup was successful:" +:+ nl +:+ out) message.
Proof.
  intros Hpool Hin Hro Hrc Hb. revert Hin. exec.
  all: intros Hin; try absurd_membership Hin; clear Hin.
  all: eexists; split; [reflexivity | apply readonly_failed_message_contains].
Qed.

Lemma readonly_failure_mail_says_successful_witness :
  let w := sample_world "set" (Exited 1 "" "permission denied") failed_backup in
  let config := sample_config (Some true) in
  degraded (1 =? 0) "cannot receive: out of space" = true ∧
  ∃ message,
    last (trace (import_decrypt_backup_export w "tank" config)) =
      Some (Mail Error message (email config)) ∧
    contains ("Backup was successful:" +:+ nl +:+ "2 snapshots sent") message.
Proof.
  intros w config. split; [reflexivity|].
  apply (readonly_failure_mail_says_successful w "tank" config tank 1 ""
           "permission denied" 1 "2 snapshots sent" "cannot receive: out of space").
  - vm_compute; reflexivity.
  - vm_compute. do 8 right. left. reflexivity.
  - vm_compute; reflexivity.
  - discriminate.
  - vm_compute; reflexivity.
Defined.

(** C1.  In a run that reaches the backup engine and gets an answer from it,
    the attempt is treated as failed exactly when the failed-dataset count is
    nonzero or the captured stderr is non-empty.  A failed attempt is
    reported by one call of [mail_error] (by one log line when no email is
    configured), a clean one by no mail; either way the run goes on to the
    read-only command, after a zero exit of that to [zpool export], and after
    a zero exit of that it ends with the completion notice. *)
Theorem degraded_backup_is_reported_and_run_goes_on (w : World)
    (device_label : string) (config : AppConfig) (pool_config : PoolConfig)
    (n : Z) (out err : string) :
  pools config !! device_label = Some pool_config →
  In (Backup (autobackup_parameters pool_config))
     (trace (import_decrypt_backup_export w device_label config)) →
  ZfsAutobackup_run w (autobackup_parameters pool_config) = Returned n out err →
  (degraded (n =? 0) err = true ↔ n ≠ 0 ∨ err ≠ "") ∧
  ∃ before report after,
    trace (import_decrypt_backup_export w device_label config) =
      before ++ [Backup (autobackup_parameters pool_config)] ++ report ++
      [Log (setting_readonly_message device_label);
       Run ["zfs"; "set"; "readonly=on"; device_label] None] ++ after ∧
    (degraded (n =? 0) err = true →
       report =
         match email config with
         | None => [Log autobackup_error_log]
         | Some e =>
             [Mail Error
                (if send_autobackup_output e
                 then autobackup_error_output_message out err
                 else autobackup_error_generic_message)
                (email config)]
         end) ∧
    (degraded (n =? 0) err = false → ∀ c m e, ¬ In (Mail c m e) report) ∧
    (∀ ro_out ro_err,
       subprocess_run w ["zfs"; "set"; "readonly=on"; device_label] None =
         Exited 0 ro_out ro_err →
       ∃ rest,
         after = [Log (exporting_message device_label);
                  Run ["zpool"; "export"; device_label] None] ++ rest ∧
         ∀ ex_out ex_err,
           subprocess_run w ["zpool"; "export"; device_label] None =
             Exited 0 ex_out ex_err →
           rest =
             [match email config with
              | None => Log (finished_message device_label)
              | Some e =>
                  Mail Info
                    (if send_autobackup_output e
                     then finished_with_output_message device_label out
                     else finished_message device_label)
                    (email config)
              end]).
Proof.
  intros Hpool Hin Hb. split.
  { unfold degraded. rewrite orb_true_iff, negb_true_iff, Z.eqb_neq, truthy_true_iff.
    done. }
  revert Hin. exec.
  all: intros Hin; try absurd_membership Hin; clear Hin.
  all: lazymatch goal with
       | |- ∃ before report after, ?t = _ ∧ _ =>
           with_prefix t (@nil Event) ltac:(fun before rest1 =>
             lazymatch rest1 with
             | Backup _ :: ?r1 =>
                 with_prefix r1 (@nil Event) ltac:(fun report rest2 =>
                   lazymatch rest2 with
                   | Log (setting_readonly_message _) :: Run _ _ :: ?after =>
                       exists before, report, after; split; [reflexivity|]
                   end)
             end)
       end.
  all: repeat split; try congruence.
  all: try (intros; cbn; intuition discriminate).
  all: intros; simplify_eq; try (eexists; split; [reflexivity|]; intros; simplify_eq; try done).
Qed.

Lemma degraded_backup_is_reported_and_run_goes_on_witness :
  let w := sample_world "" (Exited 0 "" "") failed_backup in
  let config := sample_config (Some true) in
  In (Backup (autobackup_parameters tank))
     (trace (import_decrypt_backup_export w "tank" config)) ∧
  degraded (1 =? 0) "cannot receive: out of space" = true ∧
  ∃ before report after,
    trace (import_decrypt_backup_export w "tank" config) =
      before ++ [Backup (autobackup_parameters tank)] ++ report ++
      [Log (setting_readonly_message "tank");
       Run ["zfs"; "set"; "readonly=on"; "tank"] None] ++ after.
Proof.
  intros w config.
  assert (Hin : In (Backup (autobackup_parameters tank))
                  (trace (import_decrypt_backup_export w "tank" config))).
  { vm_compute. do 5 right. left. reflexivity. }
  split; [exact Hin|].
  destruct (degraded_backup_is_reported_and_run_goes_on w "tank" config tank 1
              "2 snapshots sent" "cannot receive: out of space")
    as [Hd (before & report & after & Ht & _)].
  - vm_compute; reflexivity.
  - exact Hin.
  - vm_compute; reflexivity.
  - split; [apply Hd; left; discriminate|].
    exists before, report, after. exact Ht.
Defined.

(** C8.  In a run whose [zpool export] exits with status 0 the backup engine
    had returned, and the run ends, right after the export command, with the
    completion notice: a log line when no email is configured; a call of
    [mail] whose text is the completion text followed by the captured backup
    stdout when [send_autobackup_output] is set; a call of [mail] with the
    bare completion text, which is built from the device label alone, when
    it is not.  No other Info mail is sent in the run. *)
Theorem completion_notice_after_export (w : World) (device_label : string)
    (config : AppConfig) (pool_config : PoolConfig) (ex_out ex_err : string) :
  pools config !! device_label = Some pool_config →
  In (Run ["zpool"; "export"; device_label] None)
     (trace (import_decrypt_backup_export w device_label config)) →
  subprocess_run w ["zpool"; "export"; device_label] None = Exited 0 ex_out ex_err →
  ∃ n out err before,
    ZfsAutobackup_run w (autobackup_parameters pool_config) = Returned n out err ∧
    import_decrypt_backup_export w device_label config =
      (before ++
         [Run ["zpool"; "export"; device_label] None;
          match email config with
          | None =>
              Log ("Backup finished. You can safely unplug the disk " +:+
                   device_label +:+ " now.")
          | Some e =>
              if send_autobackup_output e
              then Mail Info
                     ("Backup finished. You can safely unplug the disk " +:+
                      device_label +:+ " now." +:+ nl +:+ nl +:+
                      "ZFS-Autobackup output:" +:+ nl +:+ out)
                     (Some e)
              else Mail Info
                     ("Backup finished. You can safely unplug the disk " +:+
                      device_label +:+ " now.")
                     (Some e)
          end],
       Ok tt) ∧
    ∀ m c, ¬ In (Mail Info m c) before.
Proof.
  intros Hpool Hin Hex. revert Hin. exec.
  all: intros Hin; try absurd_membership Hin; clear Hin.
  all: do 3 eexists.
  all: lazymatch goal with
       | |- ∃ before, _ ∧ (?t, _) = _ ∧ _ =>
           with_prefix t (@nil Event) ltac:(fun pre _ =>
             exists pre; split; [reflexivity|]; split; [reflexivity|])
       end.
  all: cbn; intuition discriminate.
Qed.

Lemma completion_notice_after_export_witness :
  (∃ before,
     import_decrypt_backup_export healthy_world "plain" (sample_config (Some true)) =
       (before ++
          [Run ["zpool"; "export"; "plain"] None;
           Mail Info
             ("Backup finished. You can safely unplug the disk plain now." +:+
              nl +:+ nl +:+ "ZFS-Autobackup output:" +:+ nl +:+ "3 snapshots sent")
             (Some {| send_autobackup_output := true |})],
        Ok tt)) ∧
  (∃ before,
     import_decrypt_backup_export healthy_world "plain" (sample_config (Some false)) =
       (before ++
          [Run ["zpool"; "export"; "plain"] None;
           Mail Info "Backup finished. You can safely unplug the disk plain now."
             (Some {| send_autobackup_output := false |})],
        Ok tt)) ∧
  (∃ before,
     import_decrypt_backup_export healthy_world "plain" (sample_config None) =
       (before ++
          [Run ["zpool"; "export"; "plain"] None;
           Log "Backup finished. You can safely unplug the disk plain now."],
        Ok tt)).
Proof.
  split; [|split].
  - destruct (completion_notice_after_export healthy_world "plain"
                (sample_config (Some true)) plain "" "")
      as (n & out & err & before & Hb & Hrun & _).
    + vm_compute; reflexivity.
    + vm_compute. do 8 right. left. reflexivity.
    + vm_compute; reflexivity.
    + injection Hb as <- <- <-. exists before. exact Hrun.
  - destruct (completion_notice_after_export healthy_world "plain"
                (sample_config (Some false)) plain "" "")
      as (n & out & err & before & Hb & Hrun & _).
    + vm_compute; reflexivity.
    + vm_compute. do 8 right. left. reflexivity.
    + vm_compute; reflexivity.
    + exists before. exact Hrun.
  - destruct (completion_notice_after_export healthy_world "plain"
                (sample_config None) plain "" "")
      as (n & out & err & before & Hb & Hrun & _).
    + vm_compute; reflexivity.
    + vm_compute. do 8 right. left. reflexivity.
    + vm_compute; reflexivity.
    + exists before. exact Hrun.
Defined.

(** C5.  [decrypt_and_backup] runs [zfs load-key <device>] exactly when the
    pool has a non-empty passphrase, and then the passphrase is the input
    data of that command.  When the command exits nonzero, [mail_error] is
    called and the function returns [None] without a backup or a read-only
    command, and the whole run (after a successful import) ends there,
    without an export.  With no passphrase, or an empty one, the function
    starts with the backup. *)
Theorem decrypt_only_with_passphrase (w : World) (device_label : string)
    (config : AppConfig) (pool_config : PoolConfig) :
  ((∃ i, In (Run ["zfs"; "load-key"; device_label] i)
           (trace (decrypt_and_backup w device_label pool_config config))) ↔
   (∃ p, passphrase pool_config = Some p ∧ p ≠ "")) ∧
  (∀ i, In (Run ["zfs"; "load-key"; device_label] i)
          (trace (decrypt_and_backup w device_label pool_config config)) →
        i = passphrase pool_config) ∧
  (∀ p rc out err,
     passphrase pool_config = Some p → p ≠ "" →
     subprocess_run w ["zfs"; "load-key"; device_label] (Some p) = Exited rc out err →
     rc ≠ 0 →
     decrypt_and_backup w device_label pool_config config =
       ([Log (decrypting_message device_label);
         Run ["zfs"; "load-key"; device_label] (Some p);
         LogError (command_error_message w
           (CalledProcessError ["zfs"; "load-key"; device_label] rc out err));
         Mail Error (decrypt_failed_message err) (email config)],
        Ok None) ∧
     ∀ im_out im_err,
       pools config !! device_label = Some pool_config →
       subprocess_run w ["zpool"; "import"; device_label; "-N"] None =
         Exited 0 im_out im_err →
       import_decrypt_backup_export w device_label config =
         ([Log (importing_message device_label);
           Run ["zpool"; "import"; device_label; "-N"] None;
           Log (decrypting_message device_label);
           Run ["zfs"; "load-key"; device_label] (Some p);
           LogError (command_error_message w
             (CalledProcessError ["zfs"; "load-key"; device_label] rc out err));
           Mail Error (decrypt_failed_message err) (email config)],
          Ok tt)) ∧
  (passphrase pool_config = None ∨ passphrase pool_config = Some "" →
   ∃ rest,
     trace (decrypt_and_backup w device_label pool_config config) =
       Log (starting_message device_label (autobackup_parameters pool_config)) ::
       Backup (autobackup_parameters pool_config) :: rest).
Proof.
  split; [split|split; [|split]].
  - intros [i Hin]. revert Hin. exec.
    all: intros Hin; try absurd_membership Hin; clear Hin.
    all: eexists; split; [reflexivity | by apply truthy_true_iff].
  - intros (p & Hp & Hne). apply truthy_true_iff in Hne. exec.
    all: exists (Some p); cbn; auto 10.
  - intros i. exec.
    all: intros Hin; try absurd_membership Hin.
    all: cbn in Hin; repeat destruct Hin as [Hin|Hin]; try discriminate;
      by simplify_eq.
  - intros p rc out err Hp Hne Hlk Hrc. apply truthy_true_iff in Hne. split.
    + by exec.
    + intros im_out im_err Hpool Him. by exec.
  - intros [Hp|Hp]; exec; eauto.
Qed.

Lemma decrypt_only_with_passphrase_witness :
  let w := sample_world "load-key" (Exited 255 "" "Key load error: Incorrect key")
             clean_backup in
  import_decrypt_backup_export w "tank" (sample_config None) =
    ([Log (importing_message "tank");
      Run ["zpool"; "import"; "tank"; "-N"] None;
      Log (decrypting_message "tank");
      Run ["zfs"; "load-key"; "tank"] (Some "correct horse");
      LogError "An error occurred: Command returned non-zero exit status.";
      Mail Error (decrypt_failed_message "Key load error: Incorrect key") None],
     Ok tt).
Proof.
  intros w.
  destruct (decrypt_only_with_passphrase w "tank" (sample_config None) tank)
    as (_ & _ & Hfail & _).
  destruct (Hfail "correct horse" 255 "" "Key load error: Incorrect key")
    as [_ Hrun].
  - reflexivity.
  - discriminate.
  - vm_compute; reflexivity.
  - discriminate.
  - apply (Hrun "" ""); vm_compute; reflexivity.
Defined.

Lemma lookup_with_passphrase (config : AppConfig) (device_label p : string)
    (pool_config : PoolConfig) :
  pools config !! device_label = Some pool_config →
  pools (with_passphrase config device_label p) !! device_label =
    Some {| passphrase := Some p;
            autobackup_parameters := autobackup_parameters pool_config |}.
Proof. intros H. cbn. by rewrite lookup_alter_eq, H. Qed.

(** C9.  Every command of a run is one of the four fixed argument vectors,
    built from the device label alone; input data is given to
    [zfs load-key] only, and it is the configured, non-empty passphrase.
    Replacing the passphrase by another non-empty one, with the world
    answering load-key alike, changes nothing an observer of the log lines,
    the mails and the argument vectors can see: the two runs differ at most
    in the data written to the standard input of load-key. *)
Theorem passphrase_reaches_only_stdin (w : World) (device_label : string)
    (config : AppConfig) (pool_config : PoolConfig) :
  pools config !! device_label = Some pool_config →
  (∀ c i,
     In (Run c i) (trace (import_decrypt_backup_export w device_label config)) →
     (c = ["zfs"; "load-key"; device_label] ∧ i = passphrase pool_config ∧ i ≠ None) ∨
     (i = None ∧
      (c = ["zpool"; "import"; device_label; "-N"] ∨
       c = ["zfs"; "set"; "readonly=on"; device_label] ∨
       c = ["zpool"; "export"; device_label]))) ∧
  (∀ p p',
     passphrase pool_config = Some p → p ≠ "" → p' ≠ "" →
     subprocess_run w ["zfs"; "load-key"; device_label] (Some p') =
       subprocess_run w ["zfs"; "load-key"; device_label] (Some p) →
     map without_input
       (trace (import_decrypt_backup_export w device_label
                 (with_passphrase config device_label p'))) =
     map without_input
       (trace (import_decrypt_backup_export w device_label config)) ∧
     result (import_decrypt_backup_export w device_label
               (with_passphrase config device_label p')) =
     result (import_decrypt_backup_export w device_label config)).
Proof.
  intros Hpool. split.
  - intros c i. exec.
    all: intros Hin; cbn in Hin; repeat destruct Hin as [Hin|Hin];
      try discriminate; try done; simplify_eq; auto 10.
  - intros p p' Hp Hne Hne' Hlk.
    apply truthy_true_iff in Hne, Hne'.
    pose proof (lookup_with_passphrase config device_label p' pool_config Hpool)
      as Hpool'.
    unfold import_decrypt_backup_export. rewrite Hpool, Hpool'.
    exec. all: done.
Qed.

Lemma passphrase_reaches_only_stdin_witness :
  let config := sample_config (Some true) in
  map without_input
    (trace (import_decrypt_backup_export healthy_world "tank"
              (with_passphrase config "tank" "hunter2"))) =
  map without_input
    (trace (import_decrypt_backup_export healthy_world "tank" config)).
Proof.
  intros config.
  destruct (passphrase_reaches_only_stdin healthy_world "tank" config tank)
    as [_ Hsame].
  - vm_compute; reflexivity.
  - apply (Hsame "correct horse" "hunter2").
    + reflexivity.
    + discriminate.
    + discriminate.
    + vm_compute; reflexivity.
Defined.

(** C4 as stated does not hold: when [zpool] cannot be started,
    [subprocess.run] raises [FileNotFoundError]; [run_command] returns no
    result, logs nothing and lets the exception through. *)
Lemma run_command_missing_tool_raises_unlogged :
  let w := sample_world "import"
             (RunRaises "FileNotFoundError" "[Errno 2] No such file or directory: 'zpool'")
             clean_backup in
  run_command w ["zpool"; "import"; "tank"; "-N"] None =
    ([Run ["zpool"; "import"; "tank"; "-N"] None],
     Raise (OtherException "FileNotFoundError"
              "[Errno 2] No such file or directory: 'zpool'")) ∧
  (∀ cp, result (run_command w ["zpool"; "import"; "tank"; "-N"] None) ≠ Ok cp) ∧
  (∀ m, ¬ In (LogError m) (trace (run_command w ["zpool"; "import"; "tank"; "-N"] None))).
Proof.
  intros w. split; [reflexivity|]. split.
  - intros cp. vm_compute. discriminate.
  - intros m. vm_compute. intuition discriminate.
Qed.

(** C4, amended.  [run_command] does one of two things, by what
    [subprocess.run] does.  When the process was started, exited and had its
    output decoded, [run_command] returns a [CompletedProcess] with the exit
    status, stdout and stderr of the tool, whether the status is zero or
    not, and raises nothing; for a nonzero status it first logs, through
    [logger.error], the words [An error occurred: ] followed by [str] of the
    [CalledProcessError] it caught.  When [subprocess.run] raises anything
    else (the executable cannot be started, the output cannot be decoded),
    [run_command] logs nothing and the exception reaches the caller. *)
Theorem run_command_returns_when_run_completes (w : World)
    (command : list string) (input_data : option string) :
  (∀ rc out err,
     subprocess_run w command input_data = Exited rc out err →
     result (run_command w command input_data) =
       Ok {| args := command; returncode := rc; stdout := out; stderr := err |} ∧
     trace (run_command w command input_data) =
       Run command input_data ::
       (if rc =? 0 then []
        else [LogError ("An error occurred: " +:+
                        exc_str w (CalledProcessError command rc out err))])) ∧
  (∀ type_name message,
     subprocess_run w command input_data = RunRaises type_name message →
     run_command w command input_data =
       ([Run command input_data], Raise (OtherException type_name message))).
Proof.
  split.
  - intros rc out err H. by rewrite (run_command_exited _ _ _ _ _ _ H).
  - intros type_name message H. by apply run_command_raises.
Qed.

Lemma run_command_returns_when_run_completes_witness :
  (let w := sample_world "export" (Exited 1 "" "pool is busy") clean_backup in
   run_command w ["zpool"; "export"; "tank"] None =
     ([Run ["zpool"; "export"; "tank"] None;
       LogError "An error occurred: Command returned non-zero exit status."],
      Ok {| args := ["zpool"; "export"; "tank"]; returncode := 1;
            stdout := ""; stderr := "pool is busy" |})) ∧
  (let w := sample_world "export"
              (RunRaises "UnicodeDecodeError"
                 "'utf-8' codec can't decode byte 0xff in position 0: invalid start byte")
              clean_backup in
   run_command w ["zpool"; "export"; "tank"] None =
     ([Run ["zpool"; "export"; "tank"] None],
      Raise (OtherException "UnicodeDecodeError"
               "'utf-8' codec can't decode byte 0xff in position 0: invalid start byte"))).
Proof.
  split; intros w.
  - destruct (run_command_returns_when_run_completes w ["zpool"; "export"; "tank"] None)
      as [Hran _].
    destruct (Hran 1 "" "pool is busy") as [Hres Htr].
    + vm_compute; reflexivity.
    + destruct (run_command w ["zpool"; "export"; "tank"] None) as [t r].
      cbn in Hres, Htr. by rewrite Hres, Htr.
  - destruct (run_command_returns_when_run_completes w ["zpool"; "export"; "tank"] None)
      as [_ Hraise].
    apply Hraise. vm_compute; reflexivity.
Defined.

(** C3 as stated does not hold, for two reasons.  When [zpool import] cannot
    be started, the exception is caught by the handler of
    [import_decrypt_backup_export], which reports it with [mail_error].
    When the backup engine raises, the handler of [decrypt_and_backup] reads
    the unbound local [stdout] and raises [UnboundLocalError] itself; the
    outer handler reports that second exception with [mail_error].  Neither
    run holds an Exception notification. *)
Lemma exceptions_are_not_mailed_as_exception :
  (let w := sample_world "import"
              (RunRaises "FileNotFoundError" "[Errno 2] No such file or directory: 'zpool'")
              clean_backup in
   let config := sample_config (Some true) in
   import_decrypt_backup_export w "tank" config =
     ([Log (importing_message "tank");
       Run ["zpool"; "import"; "tank"; "-N"] None;
       Mail Error
         ("An unexpected error occurred. Backup may have failed. Please investigate." +:+
          nl +:+ nl +:+ "Error:" +:+ nl +:+
          "[Errno 2] No such file or directory: 'zpool'" +:+ nl +:+
          "Traceback (most recent call last): ...")
         (email config)],
      Ok tt) ∧
   (∀ m c, ¬ In (Mail Exception m c)
               (trace (import_decrypt_backup_export w "tank" config)))) ∧
  (let w := sample_world "" (Exited 0 "" "")
              (BackupRaises (OtherException "RuntimeError" "ssh: connection lost")) in
   let config := sample_config (Some true) in
   import_decrypt_backup_export w "plain" config =
     ([Log (importing_message "plain");
       Run ["zpool"; "import"; "plain"; "-N"] None;
       Log (starting_message "plain" ["offsite"; "plain"]);
       Backup ["offsite"; "plain"];
       Mail Error
         ("An unexpected error occurred. Backup may have failed. Please investigate." +:+
          nl +:+ nl +:+ "Error:" +:+ nl +:+
          "cannot access local variable stdout where it is not associated with a value" +:+
          nl +:+ "Traceback (most recent call last): ...")
         (email config)],
      Ok tt) ∧
   (∀ m c, ¬ In (Mail Exception m c)
               (trace (import_decrypt_backup_export w "plain" config)))).
Proof.
  split; intros w config; (split; [reflexivity|]).
  - intros m c. vm_compute. intuition discriminate.
  - intros m c. vm_compute. intuition discriminate.
Qed.

(** C3, amended.  No exception leaves [import_decrypt_backup_export].  When
    the import or the export command cannot be run, the exception is caught
    by the outer handler and the run ends with one call of [mail_error]
    whose text holds [str] of the exception and the formatted stack trace.
    When the read-only command cannot be run, the exception is caught by the
    inner handler and the run ends with one call of [mail_exception] whose
    text holds [str] of the exception and the captured backup stdout and
    stderr, without an export.  In each case the only mail that can precede
    the report is the Error report of a failed backup attempt.  After an
    exception of the backup engine no export is run. *)
Theorem exceptions_end_the_run_with_a_report (w : World)
    (device_label : string) (config : AppConfig) :
  (∀ e, result (import_decrypt_backup_export w device_label config) ≠ Raise e) ∧
  ∀ pool_config,
    pools config !! device_label = Some pool_config →
    (∀ ty msg,
       subprocess_run w ["zpool"; "import"; device_label; "-N"] None =
         RunRaises ty msg →
       import_decrypt_backup_export w device_label config =
         ([Log (importing_message device_label);
           Run ["zpool"; "import"; device_label; "-N"] None;
           Mail Error
             ("An unexpected error occurred. Backup may have failed. Please investigate." +:+
              nl +:+ nl +:+ "Error:" +:+ nl +:+
              exc_str w (OtherException ty msg) +:+ nl +:+
              format_exc w (OtherException ty msg))
             (email config)],
          Ok tt)) ∧
    (∀ ty msg,
       In (Run ["zpool"; "export"; device_label] None)
          (trace (import_decrypt_backup_export w device_label config)) →
       subprocess_run w ["zpool"; "export"; device_label] None = RunRaises ty msg →
       ∃ n out err before,
         ZfsAutobackup_run w (autobackup_parameters pool_config) =
           Returned n out err ∧
         import_decrypt_backup_export w device_label config =
           (before ++
              [Run ["zpool"; "export"; device_label] None;
               Mail Error
                 ("An unexpected error occurred. Backup may have failed. Please investigate." +:+
                  nl +:+ nl +:+ "Error:" +:+ nl +:+
                  exc_str w (OtherException ty msg) +:+ nl +:+
                  format_exc w (OtherException ty msg))
                 (email config)],
            Ok tt) ∧
         (∀ c m cfg, In (Mail c m cfg) before →
            c = Error ∧ degraded (n =? 0) err = true ∧
            (m = autobackup_error_output_message out err ∨
             m = autobackup_error_generic_message))) ∧
    (∀ ty msg,
       In (Run ["zfs"; "set"; "readonly=on"; device_label] None)
          (trace (import_decrypt_backup_export w device_label config)) →
       subprocess_run w ["zfs"; "set"; "readonly=on"; device_label] None =
         RunRaises ty msg →
       ∃ n out err before,
         ZfsAutobackup_run w (autobackup_parameters pool_config) =
           Returned n out err ∧
         import_decrypt_backup_export w device_label config =
           (before ++
              [Run ["zfs"; "set"; "readonly=on"; device_label] None;
               Mail Exception
                 ("An unexpected error occurred. Backup may have failed. Please investigate." +:+
                  nl +:+ nl +:+ "Error:" +:+ nl +:+
                  exc_str w (OtherException ty msg) +:+ nl +:+ nl +:+
                  "Backup output:" +:+ nl +:+ out +:+ nl +:+ nl +:+ err)
                 (email config)],
            Ok tt) ∧
         (∀ c m cfg, In (Mail c m cfg) before →
            c = Error ∧ degraded (n =? 0) err = true ∧
            (m = autobackup_error_output_message out err ∨
             m = autobackup_error_generic_message)) ∧
         (∀ i, ¬ In (Run ["zpool"; "export"; device_label] i) before)) ∧
    (∀ e,
       In (Backup (autobackup_parameters pool_config))
          (trace (import_decrypt_backup_export w device_label config)) →
       ZfsAutobackup_run w (autobackup_parameters pool_config) = BackupRaises e →
       ∀ i, ¬ In (Run ["zpool"; "export"; device_label] i)
               (trace (import_decrypt_backup_export w device_label config))).
Proof.
  split.
  { exec. all: intros x Hx; discriminate. }
  intros pool_config Hpool. split; [|split; [|split]].
  - intros ty msg Him. by exec.
  - intros ty msg Hin Hex. revert Hin.
    exec_run (import_decrypt_backup_export w device_label config).
    all: intros Hin; try absurd_membership Hin; clear Hin.
    all: do 3 eexists.
    all: lazymatch goal with
         | |- ∃ before, _ ∧ (?t, _) = _ ∧ _ =>
             with_prefix t (@nil Event) ltac:(fun pre _ =>
               exists pre; split; [reflexivity|]; split; [reflexivity|])
         end.
    all: intros c m cfg Hin; cbn in Hin; repeat destruct Hin as [Hin|Hin];
      try discriminate; try done; simplify_eq; auto.
  - intros ty msg Hin Hro. revert Hin.
    exec_run (import_decrypt_backup_export w device_label config).
    all: intros Hin; try absurd_membership Hin; clear Hin.
    all: do 3 eexists.
    all: lazymatch goal with
         | |- ∃ before, _ ∧ (?t, _) = _ ∧ _ =>
             with_prefix t (@nil Event) ltac:(fun pre _ =>
               exists pre; split; [reflexivity|]; split; [reflexivity|])
         end.
    all: split; [|cbn; intuition discriminate].
    all: intros c m cfg Hin; cbn in Hin; repeat destruct Hin as [Hin|Hin];
      try discriminate; try done; simplify_eq; auto.
  - intros e Hin Hb. revert Hin.
    exec_run (import_decrypt_backup_export w device_label config).
    all: intros Hin; try absurd_membership Hin; clear Hin.
    all: intros i; cbn; intuition discriminate.
Qed.

Lemma exceptions_end_the_run_with_a_report_witness :
  let w := sample_world "set"
             (RunRaises "PermissionError" "[Errno 13] Permission denied: 'zfs'")
             failed_backup in
  let config := sample_config None in
  ∃ before,
    import_decrypt_backup_export w "plain" config =
      (before ++
         [Run ["zfs"; "set"; "readonly=on"; "plain"] None;
          Mail Exception
            ("An unexpected error occurred. Backup may have failed. Please investigate." +:+
             nl +:+ nl +:+ "Error:" +:+ nl +:+
             "[Errno 13] Permission denied: 'zfs'" +:+ nl +:+ nl +:+
             "Backup output:" +:+ nl +:+ "2 snapshots sent" +:+ nl +:+ nl +:+
             "cannot receive: out of space")
            None],
       Ok tt).
Proof.
  intros w config.
  destruct (exceptions_end_the_run_with_a_report w "plain" config) as [_ H].
  destruct (H plain) as (_ & _ & Hro & _); [vm_compute; reflexivity|].
  destruct (Hro "PermissionError" "[Errno 13] Permission denied: 'zfs'")
    as (n & out & err & before & Hb & Ht & _).
  - vm_compute. do 6 right. left. reflexivity.
  - vm_compute; reflexivity.
  - injection Hb as <- <- <-. exists before. exact Ht.
Defined.

(** ** Further properties of the pipeline *)

(** X1.  In a run whose [zpool export] exits nonzero, the read-only command
    had exited with status 0 and the run ends with the logged
    [CalledProcessError] and one call of [mail_error] whose text is the
    failure notice followed by the stderr of export; no Info mail is sent,
    and the function returns. *)
Theorem export_failure_is_reported (w : World) (device_label : string)
    (config : AppConfig) (pool_config : PoolConfig) (rc : Z)
    (ex_out ex_err : string) :
  pools config !! device_label = Some pool_config →
  In (Run ["zpool"; "export"; device_label] None)
     (trace (import_decrypt_backup_export w device_label config)) →
  subprocess_run w ["zpool"; "export"; device_label] None = Exited rc ex_out ex_err →
  rc ≠ 0 →
  (∃ ro_out ro_err,
     subprocess_run w ["zfs"; "set"; "readonly=on"; device_label] None =
       Exited 0 ro_out ro_err) ∧
  ∃ before,
    import_decrypt_backup_export w device_label config =
      (before ++
         [Run ["zpool"; "export"; device_label] None;
          LogError ("An error occurred: " +:+
                    exc_str w (CalledProcessError
                                 ["zpool"; "export"; device_label] rc ex_out ex_err));
          Mail Error
            ("Failed to export pool." +:+ nl +:+ nl +:+ "Error:" +:+ nl +:+ ex_err)
            (email config)],
       Ok tt) ∧
    ∀ m c, ¬ In (Mail Info m c) before.
Proof.
  intros Hpool Hin Hex Hrc. revert Hin.
  exec_run (import_decrypt_backup_export w device_label config).
  all: intros Hin; try absurd_membership Hin; clear Hin.
  all: split; [eauto|].
  all: lazymatch goal with
       | |- ∃ before, (?t, _) = _ ∧ _ =>
           with_prefix t (@nil Event) ltac:(fun pre _ =>
             exists pre; split; [reflexivity|])
       end.
  all: cbn; intuition discriminate.
Qed.

Lemma export_failure_is_reported_witness :
  let w := sample_world "export" (Exited 1 "" "pool is busy") clean_backup in
  let config := sample_config (Some true) in
  ∃ before,
    import_decrypt_backup_export w "plain" config =
      (before ++
         [Run ["zpool"; "export"; "plain"] None;
          LogError "An error occurred: Command returned non-zero exit status.";
          Mail Error
            ("Failed to export pool." +:+ nl +:+ nl +:+ "Error:" +:+ nl +:+
             "pool is busy")
            (email config)],
       Ok tt) ∧
    ∀ m c, ¬ In (Mail Info m c) before.
Proof.
  intros w config.
  apply (export_failure_is_reported w "plain" config plain 1 "" "pool is busy").
  - vm_compute; reflexivity.
  - vm_compute. do 8 right. left. reflexivity.
  - vm_compute; reflexivity.
  - discriminate.
Defined.

(** X2.  The commands of a run for a configured pool are an initial segment
    of: import, load-key (when the passphrase is non-empty), backup,
    read-only, export.  So the stages run in this order, none is skipped
    before a later one runs, and none runs twice. *)
Theorem commands_follow_stage_sequence (w : World) (device_label : string)
    (config : AppConfig) (pool_config : PoolConfig) :
  pools config !! device_label = Some pool_config →
  commands (trace (import_decrypt_backup_export w device_label config))
    `prefix_of` stage_sequence device_label pool_config.
Proof.
  intros Hpool. unfold prefix, stage_sequence, commands. exec.
  all: eexists; reflexivity.
Qed.

Lemma commands_follow_stage_sequence_witness :
  commands (trace (import_decrypt_backup_export
                     (sample_world "set" (Exited 1 "" "permission denied") clean_backup)
                     "tank" (sample_config None)))
    `prefix_of` stage_sequence "tank" tank.
Proof.
  apply (commands_follow_stage_sequence _ "tank" (sample_config None) tank).
  vm_compute; reflexivity.
Defined.

(** X3.  Each stage runs exactly when the stage before it succeeded: the
    backup engine is started iff import exited with 0 and, for a non-empty
    passphrase, load-key exited with 0; the read-only command is run iff the
    engine was started and returned; export is run iff the read-only command
    was run and exited with 0. *)
Theorem stages_are_gated (w : World) (device_label : string)
    (config : AppConfig) (pool_config : PoolConfig) :
  pools config !! device_label = Some pool_config →
  (In (Backup (autobackup_parameters pool_config))
      (trace (import_decrypt_backup_export w device_label config)) ↔
   (∃ out err,
      subprocess_run w ["zpool"; "import"; device_label; "-N"] None =
        Exited 0 out err) ∧
   (∀ p, passphrase pool_config = Some p → truthy p = true →
      ∃ out err,
        subprocess_run w ["zfs"; "load-key"; device_label] (Some p) =
          Exited 0 out err)) ∧
  (In (Run ["zfs"; "set"; "readonly=on"; device_label] None)
      (trace (import_decrypt_backup_export w device_label config)) ↔
   In (Backup (autobackup_parameters pool_config))
      (trace (import_decrypt_backup_export w device_label config)) ∧
   ∃ n out err,
     ZfsAutobackup_run w (autobackup_parameters pool_config) = Returned n out err) ∧
  (In (Run ["zpool"; "export"; device_label] None)
      (trace (import_decrypt_backup_export w device_label config)) ↔
   In (Run ["zfs"; "set"; "readonly=on"; device_label] None)
      (trace (import_decrypt_backup_export w device_label config)) ∧
   ∃ out err,
     subprocess_run w ["zfs"; "set"; "readonly=on"; device_label] None =
       Exited 0 out err).
Proof.
  intros Hpool.
  exec_run (import_decrypt_backup_export w device_label config).
  all: repeat match goal with
       | |- _ ∧ _ => split
       | |- _ ↔ _ => split
       end.
  all: gate_leaf.
Qed.

Lemma stages_are_gated_witness :
  let w := sample_world "set" (Exited 1 "" "permission denied") clean_backup in
  let config := sample_config None in
  In (Run ["zfs"; "set"; "readonly=on"; "tank"] None)
     (trace (import_decrypt_backup_export w "tank" config)) ∧
  ¬ In (Run ["zpool"; "export"; "tank"] None)
       (trace (import_decrypt_backup_export w "tank" config)).
Proof.
  intros w config.
  destruct (stages_are_gated w "tank" config tank) as (_ & Hro & Hex).
  { vm_compute; reflexivity. }
  split.
  - apply Hro. split.
    + vm_compute. do 5 right. left. reflexivity.
    + exists 0, "3 snapshots sent", "". reflexivity.
  - intros Hin. apply Hex in Hin as [_ (out & err & Hrun)].
    vm_compute in Hrun. discriminate.
Defined.

(** X4.  An exception raised before line 57 has bound [stdout] and [stderr]
    (the backup engine raises, or load-key cannot be run) is not reported by
    the handler of [decrypt_and_backup]: reading [stdout] there raises
    [UnboundLocalError], and the run ends with the [mail_error] of the outer
    handler about that second exception.  No call of [mail_exception] is
    made. *)
Theorem exception_before_capture_is_reported_as_unbound_local (w : World)
    (device_label : string) (config : AppConfig) (pool_config : PoolConfig) :
  pools config !! device_label = Some pool_config →
  (∀ e,
     In (Backup (autobackup_parameters pool_config))
        (trace (import_decrypt_backup_export w device_label config)) →
     ZfsAutobackup_run w (autobackup_parameters pool_config) = BackupRaises e →
     ∃ before,
       import_decrypt_backup_export w device_label config =
         (before ++
            [Backup (autobackup_parameters pool_config);
             Mail Error
               (envelope_exception_message w (UnboundLocalError "stdout" e))
               (email config)],
          Ok tt) ∧
       ∀ c m cfg, ¬ In (Mail c m cfg) before) ∧
  (∀ p ty msg,
     In (Run ["zfs"; "load-key"; device_label] (Some p))
        (trace (import_decrypt_backup_export w device_label config)) →
     subprocess_run w ["zfs"; "load-key"; device_label] (Some p) = RunRaises ty msg →
     ∃ before,
       import_decrypt_backup_export w device_label config =
         (before ++
            [Run ["zfs"; "load-key"; device_label] (Some p);
             Mail Error
               (envelope_exception_message w
                  (UnboundLocalError "stdout" (OtherException ty msg)))
               (email config)],
          Ok tt) ∧
       ∀ c m cfg, ¬ In (Mail c m cfg) before).
Proof.
  intros Hpool. split.
  - intros e Hin Hb. revert Hin.
    exec_run (import_decrypt_backup_export w device_label config).
    all: intros Hin; try absurd_membership Hin; clear Hin.
    all: lazymatch goal with
         | |- ∃ before, (?t, _) = _ ∧ _ =>
             with_prefix t (@nil Event) ltac:(fun pre _ =>
               exists pre; split; [reflexivity|])
         end.
    all: cbn; intuition discriminate.
  - intros p ty msg Hin Hlk. revert Hin.
    exec_run (import_decrypt_backup_export w device_label config).
    all: intros Hin; try absurd_membership Hin.
    all: cbn in Hin; repeat destruct Hin as [Hin|Hin]; try discriminate;
      try done; simplify_eq.
    all: match goal with
         | H1 : ?x = _, H2 : ?x = _ |- _ => rewrite H1 in H2; simplify_eq
         end.
    all: lazymatch goal with
         | |- ∃ before, (?t, _) = _ ∧ _ =>
             with_prefix t (@nil Event) ltac:(fun pre _ =>
               exists pre; split; [reflexivity|])
         end.
    all: cbn; intuition discriminate.
Qed.

Lemma exception_before_capture_is_reported_as_unbound_local_witness :
  let w := sample_world "" (Exited 0 "" "")
             (BackupRaises (OtherException "RuntimeError" "ssh: connection lost")) in
  let config := sample_config (Some true) in
  ∃ before,
    import_decrypt_backup_export w "tank" config =
      (before ++
         [Backup (autobackup_parameters tank);
          Mail Error
            (envelope_exception_message w
               (UnboundLocalError "stdout"
                  (OtherException "RuntimeError" "ssh: connection lost")))
            (email config)],
       Ok tt) ∧
    ∀ c m cfg, ¬ In (Mail c m cfg) before.
Proof.
  intros w config.
  destruct (exception_before_capture_is_reported_as_unbound_local w "tank" config tank)
    as [Hb _].
  { vm_compute; reflexivity. }
  apply Hb.
  - vm_compute. do 5 right. left. reflexivity.
  - vm_compute; reflexivity.
Defined.

(** X5.  [decrypt_and_backup] returns the captured backup stdout exactly
    when the backup engine returned it and the read-only command was run and
    exited with 0, whether or not the attempt counted as failed.  The only
    exception that its handler lets out is the [UnboundLocalError] raised in
    the handler itself; a [SystemExit] of the backup engine is not caught
    and leaves the function right after the engine was started. *)
Theorem decrypt_and_backup_result (w : World) (device_label : string)
    (pool_config : PoolConfig) (config : AppConfig) :
  (∀ s,
     result (decrypt_and_backup w device_label pool_config config) = Ok (Some s) ↔
     In (Run ["zfs"; "set"; "readonly=on"; device_label] None)
        (trace (decrypt_and_backup w device_label pool_config config)) ∧
     (∃ out err,
        subprocess_run w ["zfs"; "set"; "readonly=on"; device_label] None =
          Exited 0 out err) ∧
     (∃ n err,
        ZfsAutobackup_run w (autobackup_parameters pool_config) = Returned n s err)) ∧
  (∀ x,
     result (decrypt_and_backup w device_label pool_config config) = Raise x →
     ∃ e, x = UnboundLocalError "stdout" e) ∧
  (∀ code,
     result (decrypt_and_backup w device_label pool_config config) = Exits code ↔
     In (Backup (autobackup_parameters pool_config))
        (trace (decrypt_and_backup w device_label pool_config config)) ∧
     ZfsAutobackup_run w (autobackup_parameters pool_config) = BackupExits code) ∧
  (∀ code,
     result (decrypt_and_backup w device_label pool_config config) = Exits code →
     last (trace (decrypt_and_backup w device_label pool_config config)) =
       Some (Backup (autobackup_parameters pool_config))).
Proof.
  exec_run (decrypt_and_backup w device_label pool_config config).
  all: split;
    [intros captured; split;
       [intros Hs | intros (Hin & (o & e' & Hro) & (n' & err' & Hb))]
    |split;
       [intros x Hx
       |split; [intros exit_code; split; [intros Hc | intros [Hin Hb]]
               |intros exit_code Hc]]].
  all: simplify_eq; try done.
  all: try (repeat split; cbn; eauto 15; fail).
  all: absurd_membership Hin.
Qed.


(** X7.  For a configured pool an Info mail is sent only as the last event
    of a run in which the backup engine returned and both the read-only
    command and export exited with 0; its text is the completion text, with
    or without the captured stdout, and an email configuration is present. *)
Theorem info_mail_only_after_successful_export (w : World)
    (device_label : string) (config : AppConfig) (pool_config : PoolConfig)
    (m : string) (c : option EmailConfig) :
  pools config !! device_label = Some pool_config →
  In (Mail Info m c) (trace (import_decrypt_backup_export w device_label config)) →
  (∃ out err,
     subprocess_run w ["zfs"; "set"; "readonly=on"; device_label] None =
       Exited 0 out err) ∧
  (∃ out err,
     subprocess_run w ["zpool"; "export"; device_label] None = Exited 0 out err) ∧
  (∃ n out err,
     ZfsAutobackup_run w (autobackup_parameters pool_config) = Returned n out err ∧
     (m = finished_message device_label ∨
      m = finished_with_output_message device_label out)) ∧
  last (trace (import_decrypt_backup_export w device_label config)) =
    Some (Mail Info m c) ∧
  c = email config ∧ c ≠ None.
Proof.
  intros Hpool.
  exec_run (import_decrypt_backup_export w device_label config).
  all: intros Hin; repeat destruct Hin as [Hin|Hin]; try discriminate;
    try done; simplify_eq.
  all: repeat split; eauto 10.
Qed.

Lemma info_mail_only_after_successful_export_witness :
  let config := sample_config (Some true) in
  (∃ out err,
     subprocess_run healthy_world ["zpool"; "export"; "plain"] None = Exited 0 out err) ∧
  email config ≠ None.
Proof.
  intros config.
  destruct (info_mail_only_after_successful_export healthy_world "plain" config
              plain (finished_with_output_message "plain" "3 snapshots sent")
              (email config))
    as (_ & Hex & _ & _ & _ & Hne).
  - vm_compute; reflexivity.
  - vm_compute. do 9 right. left. reflexivity.
  - split; [exact Hex | exact Hne].
Defined.

(** X8.  The run in which everything succeeds, for a pool with a non-empty
    passphrase and a backup without failed datasets and without stderr:
    import, load-key with the passphrase on standard input, backup (its
    stdout is logged when non-empty), read-only, export, and the completion
    notice; nothing else. *)
Theorem clean_run_trace (w : World) (device_label : string)
    (config : AppConfig) (pool_config : PoolConfig) (p : string)
    (im_out im_err lk_out lk_err out ro_out ro_err ex_out ex_err : string) :
  pools config !! device_label = Some pool_config →
  passphrase pool_config = Some p →
  p ≠ "" →
  subprocess_run w ["zpool"; "import"; device_label; "-N"] None =
    Exited 0 im_out im_err →
  subprocess_run w ["zfs"; "load-key"; device_label] (Some p) =
    Exited 0 lk_out lk_err →
  ZfsAutobackup_run w (autobackup_parameters pool_config) = Returned 0 out "" →
  subprocess_run w ["zfs"; "set"; "readonly=on"; device_label] None =
    Exited 0 ro_out ro_err →
  subprocess_run w ["zpool"; "export"; device_label] None =
    Exited 0 ex_out ex_err →
  import_decrypt_backup_export w device_label config =
    ([Log (importing_message device_label);
      Run ["zpool"; "import"; device_label; "-N"] None;
      Log (decrypting_message device_label);
      Run ["zfs"; "load-key"; device_label] (Some p);
      Log (starting_message device_label (autobackup_parameters pool_config));
      Backup (autobackup_parameters pool_config)] ++
     (if truthy out then [Log out] else []) ++
     [Log (setting_readonly_message device_label);
      Run ["zfs"; "set"; "readonly=on"; device_label] None;
      Log (exporting_message device_label);
      Run ["zpool"; "export"; device_label] None;
      match email config with
      | None => Log (finished_message device_label)
      | Some e =>
          Mail Info
            (if send_autobackup_output e
             then finished_with_output_message device_label out
             else finished_message device_label)
            (email config)
      end],
     Ok tt).
Proof.
  intros Hpool Hp Hne Him Hlk Hb Hro Hex. apply truthy_true_iff in Hne.
  exec. all: done.
Qed.

Lemma clean_run_trace_witness :
  import_decrypt_backup_export healthy_world "tank" (sample_config None) =
    ([Log (importing_message "tank");
      Run ["zpool"; "import"; "tank"; "-N"] None;
      Log (decrypting_message "tank");
      Run ["zfs"; "load-key"; "tank"] (Some "correct horse");
      Log (starting_message "tank" (autobackup_parameters tank));
      Backup (autobackup_parameters tank);
      Log "3 snapshots sent";
      Log (setting_readonly_message "tank");
      Run ["zfs"; "set"; "readonly=on"; "tank"] None;
      Log (exporting_message "tank");
      Run ["zpool"; "export"; "tank"] None;
      Log (finished_message "tank")],
     Ok tt).
Proof.
  apply (clean_run_trace healthy_world "tank" (sample_config None) tank
           "correct horse" "" "" "" "" "3 snapshots sent" "" "" "" "").
  all: try (vm_compute; reflexivity).
  discriminate.
Defined.

(** With the tools answering alike, the commands of a run are those of the
    run in which the backup engine returns a clean result and no email is
    configured. *)
Lemma commands_normal_form (w : World) (device_label : string)
    (ps : gmap string PoolConfig) (e : option EmailConfig) (n : Z)
    (out err : string) :
  commands (trace (import_decrypt_backup_export
                     (with_backup w (Returned n out err)) device_label
                     {| pools := ps; email := e |})) =
  commands (trace (import_decrypt_backup_export
                     (with_backup w (Returned 0 "" "")) device_label
                     {| pools := ps; email := None |})).
Proof. unfold commands. exec. all: done. Qed.

(** X9.  What the backup engine returns (failed-dataset count, stdout,
    stderr) and whether and how email is configured change the messages of
    a run only: with the tools answering alike, the same commands are run in
    the same order. *)
Theorem backup_result_and_email_do_not_steer (w : World)
    (device_label : string) (ps : gmap string PoolConfig)
    (e e' : option EmailConfig) (n n' : Z) (out out' err err' : string) :
  commands (trace (import_decrypt_backup_export
                     (with_backup w (Returned n out err)) device_label
                     {| pools := ps; email := e |})) =
  commands (trace (import_decrypt_backup_export
                     (with_backup w (Returned n' out' err')) device_label
                     {| pools := ps; email := e' |})).
Proof.
  rewrite (commands_normal_form w device_label ps e n out err).
  by rewrite (commands_normal_form w device_label ps e' n' out' err').
Qed.

(** X10.  [mail_exception] is called only when the read-only command could
    not be run after the backup engine had returned: it is then the last
    event of the run, and its text is built from that exception and the
    captured backup stdout and stderr. *)
Theorem mail_exception_only_for_readonly_stage (w : World)
    (device_label : string) (config : AppConfig) (m : string)
    (c : option EmailConfig) :
  In (Mail Exception m c)
     (trace (import_decrypt_backup_export w device_label config)) →
  ∃ pool_config ty msg n out err,
    pools config !! device_label = Some pool_config ∧
    subprocess_run w ["zfs"; "set"; "readonly=on"; device_label] None =
      RunRaises ty msg ∧
    ZfsAutobackup_run w (autobackup_parameters pool_config) = Returned n out err ∧
    m = inner_exception_message w (OtherException ty msg) out err ∧
    last (trace (import_decrypt_backup_export w device_label config)) =
      Some (Mail Exception m c).
Proof.
  exec_run (import_decrypt_backup_export w device_label config).
  all: intros Hin; repeat destruct Hin as [Hin|Hin]; try discriminate;
    try done; simplify_eq.
  all: do 6 eexists; repeat split; eauto.
Qed.

Lemma mail_exception_only_for_readonly_stage_witness :
  let w := sample_world "set"
             (RunRaises "PermissionError" "[Errno 13] Permission denied: 'zfs'")
             failed_backup in
  ∃ ty msg,
    subprocess_run w ["zfs"; "set"; "readonly=on"; "plain"] None = RunRaises ty msg.
Proof.
  intros w.
  destruct (mail_exception_only_for_readonly_stage w "plain" (sample_config None)
              (inner_exception_message w
                 (OtherException "PermissionError" "[Errno 13] Permission denied: 'zfs'")
                 "2 snapshots sent" "cannot receive: out of space")
              None)
    as (pc & ty & msg & n & out & err & _ & Hro & _).
  - vm_compute. do 7 right. left. reflexivity.
  - exists ty, msg. exact Hro.
Defined.

(** X11.  Without an email configuration, the run for a configured pool
    calls a mail helper only to report the failure that ends it: such a call
    is never [mail], and it is the last event of the run. *)
Theorem without_email_only_a_failure_is_mailed (w : World)
    (device_label : string) (config : AppConfig) (pool_config : PoolConfig)
    (c : Category) (m : string) (cfg : option EmailConfig) :
  pools config !! device_label = Some pool_config →
  email config = None →
  In (Mail c m cfg) (trace (import_decrypt_backup_export w device_label config)) →
  c ≠ Info ∧
  last (trace (import_decrypt_backup_export w device_label config)) =
    Some (Mail c m cfg).
Proof.
  intros Hpool Hemail.
  exec_run (import_decrypt_backup_export w device_label config).
  all: intros Hin; repeat destruct Hin as [Hin|Hin]; try discriminate;
    try done; by simplify_eq.
Qed.

Lemma without_email_only_a_failure_is_mailed_witness :
  let w := sample_world "import" (Exited 1 "" "cannot import pool") clean_backup in
  last (trace (import_decrypt_backup_export w "tank" (sample_config None))) =
    Some (Mail Error (import_failed_message "cannot import pool") None).
Proof.
  intros w.
  apply (without_email_only_a_failure_is_mailed w "tank" (sample_config None) tank
           Error (import_failed_message "cannot import pool") None).
  - vm_compute; reflexivity.
  - reflexivity.
  - vm_compute. do 3 right. left. reflexivity.
Defined.
